(** * WikiRequest: cache eligibility and request normalisation

    A shallow embedding of [src/lib/WikiRequest.ts] (class [WikiRequest]) and
    the properties of its article resolver, cache policy evaluator, client
    preference extractor and dispatcher.

    Conventions.
    - A JavaScript string is a sequence of UTF-16 code units; the model keeps
      the code units below 256, one [ascii] each.
    - [string | null | undefined] is [option string]; a value is truthy when
      it is a non-empty string.
    - [this.cookies] is read at its declared type
      [Record<string, string | undefined>]: a finite map from cookie names
      to string values. The constructor is not embedded, because the object
      literal of the field initialiser inherits the members of
      [Object.prototype], which are not strings; its assignment
      [this.url = new URL(this.req.url)] is a hypothesis where it matters.
    - [URLSearchParams] is the ordered list of decoded (key, value) pairs. *)

From Stdlib Require Import ZArith Ascii String List Bool Lia.
From stdpp Require Import base option list strings gmap.

Local Open Scope string_scope.
Local Open Scope list_scope.

(** ** JavaScript string primitives used by the class *)

Module JS.

(** [!!v] for [v : string | null | undefined]. *)
Definition truthy (v : option string) : bool :=
  match v with
  | Some (String _ _) => true
  | _ => false
  end.

(** [!!o] for [o : object | null]. *)
Definition notNull {A : Type} (o : option A) : bool :=
  match o with
  | Some _ => true
  | None => false
  end.

(** [s.startsWith(p)]. *)
Definition startsWith (s p : string) : bool := String.prefix p s.

(** [s.slice(n)] for a non-negative index [n]. *)
Fixpoint slice (n : nat) (s : string) : string :=
  match n, s with
  | O, _ => s
  | S _, EmptyString => EmptyString
  | S n', String _ s' => slice n' s'
  end.

(** [s.split(sep)] for a one-character separator: every occurrence of the
    separator cuts, and the empty string yields one empty piece. *)
Fixpoint split (sep : ascii) (s : string) : list string :=
  match s with
  | EmptyString => [EmptyString]
  | String c s' =>
      if Ascii.eqb c sep then EmptyString :: split sep s'
      else match split sep s' with
           | [] => [String c EmptyString]
           | p :: ps => String c p :: ps
           end
  end.

(** White space and line terminators among the code units below 256:
    TAB, LF, VT, FF, CR, SPACE and NO-BREAK SPACE. *)
Definition isWhiteSpace (c : ascii) : bool :=
  let n := nat_of_ascii c in
  (Nat.leb 9 n && Nat.leb n 13) || Nat.eqb n 32 || Nat.eqb n 160.

Fixpoint trimStart (s : string) : string :=
  match s with
  | EmptyString => EmptyString
  | String c s' => if isWhiteSpace c then trimStart s' else s
  end.

Fixpoint trimEnd (s : string) : string :=
  match s with
  | EmptyString => EmptyString
  | String c s' =>
      match trimEnd s' with
      | EmptyString => if isWhiteSpace c then EmptyString else String c EmptyString
      | t => String c t
      end
  end.

(** [s.trim()]. *)
Definition trim (s : string) : string := trimEnd (trimStart s).

End JS.

(** ** Data model *)

(** [interface Article]. *)
Record Article := mkArticle { ns : string; title : string }.

(** The parts of a [URL] object the class reads and writes. *)
Record URL := mkURL {
  origin : string;
  pathname : string;
  searchParams : list (string * string)
}.

(** [url.searchParams.get(key)]: the first value bound to [key], or null. *)
Fixpoint searchParams_get (q : list (string * string)) (key : string) : option string :=
  match q with
  | [] => None
  | (k, v) :: q' => if String.eqb k key then Some v else searchParams_get q' key
  end.

(** [url.searchParams.has(key)]. *)
Definition searchParams_has (q : list (string * string)) (key : string) : bool :=
  existsb (fun kv => String.eqb (fst kv) key) q.

(** The parts of a [Request] the class depends on. *)
Record Request := mkRequest {
  req_url : URL;
  req_method : string;
  req_cookieHeader : option string
}.

(** [new Request(url, init)]: the request [init] aimed at [url]. *)
Definition Request_new (u : URL) (init : Request) : Request :=
  {| req_url := u; req_method := req_method init;
     req_cookieHeader := req_cookieHeader init |}.

(** Modelled from the spec: the declaration of [Env] is not among the
    sources; these are the bindings the class reads, typed as the
    specification's configuration surface and the uses in the class have
    them. *)
Record Env := mkEnv {
  PRIVATE_COOKIE_NAMES : list string;
  CACHED_NAMESPACES : list string;
  CLIENT_PREFS_COOKIE_NAME : string;
  CLIENT_PREFS_CLASS_PREFIXES : list string;
  PAGE_TTL : Z;
  MISSING_PAGE_TTL : Z
}.

(** Modelled from the spec: [ClientPref] is declared in [../types], which is
    not among the sources; the two fields are those [getClientPrefs] fills
    in. *)
Record ClientPref := mkClientPref { className : string; classPrefix : string }.

(** The fields of a [WikiRequest] instance. *)
Record WikiRequest := mkWikiRequest {
  req : Request;
  env : Env;
  cookies : gmap string string;
  url : URL
}.

Definition DISQUALIFYING_QUERY_KEYS : list string :=
  ["action"; "veaction"; "diff"; "curid"; "oldid"; "debug"; "redirect"].

(** ** Article resolver *)

Definition Main_Page : Article := {| ns := ""; title := "Main_Page" |}.

(** [extractArticle(title)]: [parts] is [title.split(':')], of which the
    destructuring [[ns, articleTitle]] reads the first two elements. *)
Definition extractArticle (title : option string) : option Article :=
  if negb (JS.truthy title) then Some Main_Page
  else
    let parts := JS.split ":" (default "" title) in
    let ns := default "" (parts !! 0%nat) in
    match parts !! 1%nat with
    | Some EmptyString => None
    | None => Some {| ns := ""; title := ns |}
    | Some articleTitle => Some {| ns := ns; title := articleTitle |}
    end.

(** [get targetArticle()]. *)
Definition targetArticle (w : WikiRequest) : option Article :=
  if String.eqb (pathname (url w)) "/index.php" then
    extractArticle (searchParams_get (searchParams (url w)) "title")
  else if String.eqb (pathname (url w)) "/" then Some Main_Page
  else if JS.startsWith (pathname (url w)) "/w/" then
    extractArticle (Some (JS.slice 3 (pathname (url w))))
  else None.

(** ** Cache policy evaluator *)

(** The loop over [PRIVATE_COOKIE_NAMES]: true when it reaches its
    [return false]. *)
Fixpoint hasPrivateCookie (cookies : gmap string string) (names : list string) : bool :=
  match names with
  | [] => false
  | cookieName :: rest =>
      if JS.truthy (cookies !! cookieName) then true
      else hasPrivateCookie cookies rest
  end.

(** [cachedNamespaces.includes(ns)]. *)
Definition includes (l : list string) (s : string) : bool :=
  existsb (String.eqb s) l.

(** [get isEligibleForCache()]. *)
Definition isEligibleForCache (w : WikiRequest) : bool :=
  if hasPrivateCookie (cookies w) (PRIVATE_COOKIE_NAMES (env w)) then false
  else
    match targetArticle w with
    | None => false
    | Some article =>
        if existsb (fun key => searchParams_has (searchParams (url w)) key)
             DISQUALIFYING_QUERY_KEYS
        then false
        else if negb (includes (CACHED_NAMESPACES (env w)) (ns article)) then false
        else true
    end.

(** ** Client preference extractor *)

(** The inner loop of [getClientPrefs] for one [classPrefix]: push the first
    class name that starts with it and [break]. *)
Fixpoint scanClassNames (classPrefix : string) (classNames : list string)
    (clientPrefs : list ClientPref) : list ClientPref :=
  match classNames with
  | [] => clientPrefs
  | className :: rest =>
      if JS.startsWith className classPrefix
      then clientPrefs ++ [ {| className := className; classPrefix := classPrefix |} ]
      else scanClassNames classPrefix rest clientPrefs
  end.

(** [clientPrefsCookie.split(',').map(className => className.trim())]. *)
Definition classNamesOf (clientPrefsCookie : string) : list string :=
  map JS.trim (JS.split "," clientPrefsCookie).

(** [getClientPrefs()]. *)
Definition getClientPrefs (w : WikiRequest) : list ClientPref :=
  let clientPrefsCookie := cookies w !! CLIENT_PREFS_COOKIE_NAME (env w) in
  if negb (JS.truthy clientPrefsCookie) then []
  else
    let classNames := classNamesOf (default "" clientPrefsCookie) in
    fold_left (fun clientPrefs classPrefix =>
                 scanClassNames classPrefix classNames clientPrefs)
              (CLIENT_PREFS_CLASS_PREFIXES (env w)) [].

(** ** Request normaliser and dispatcher *)

(** A key of [cacheTtlByStatus]: ['200'] is [Status 200], ['300-399'] is
    [StatusRange 300 399]. *)
Inductive StatusKey :=
| Status (code : Z)
| StatusRange (lo hi : Z).

(** The [cf] properties handed to the platform's [fetch]; [undefined] is
    [None]. *)
Record CfProperties := mkCf {
  cacheTtlByStatus : option (list (StatusKey * Z));
  cacheEverything : bool
}.

Definition statusMatches (k : StatusKey) (status : Z) : bool :=
  match k with
  | Status code => Z.eqb status code
  | StatusRange lo hi => Z.leb lo status && Z.leb status hi
  end.

(** The TTL a table of [cacheTtlByStatus] gives to a response status. *)
Fixpoint ttlForStatus (tbl : list (StatusKey * Z)) (status : Z) : option Z :=
  match tbl with
  | [] => None
  | (k, ttl) :: tbl' => if statusMatches k status then Some ttl else ttlForStatus tbl' status
  end.

(** The path written by the template literal of [fetch]. *)
Definition canonicalPath (a : Article) : string :=
  "/w/" +:+ (if JS.truthy (Some (ns a)) then ns a +:+ ":" else "") +:+ title a.

(** The object literal given as [cacheTtlByStatus] to an eligible request. *)
Definition ttlByStatus (e : Env) : list (StatusKey * Z) :=
  [ (Status 200, PAGE_TTL e);
    (StatusRange 300 399, (-1)%Z);
    (Status 404, MISSING_PAGE_TTL e);
    (StatusRange 500 599, (-1)%Z) ].

Section Dispatcher.

(** What [url.pathname] reads after [url.pathname = p] on the platform. *)
Variable URL_set_pathname : string -> string.

(** The first statement of [fetch]: the conditional rewrite of [this.url]
    and [this.req]. *)
Definition canonicalize (w : WikiRequest) : WikiRequest :=
  let targetArticle := targetArticle w in
  if isEligibleForCache w && JS.notNull targetArticle
     && String.eqb (pathname (url w)) "/index.php"
  then
    match targetArticle with
    | Some a =>
        let url' := {| origin := origin (url w);
                       pathname := URL_set_pathname (canonicalPath a);
                       searchParams := [] |} in
        {| req := Request_new url' (req w); env := env w;
           cookies := cookies w; url := url' |}
    | None => w
    end
  else w.

(** The argument list of the platform's [fetch] built by [fetch()]. *)
Definition cfOf (w : WikiRequest) : CfProperties :=
  {| cacheTtlByStatus :=
       if isEligibleForCache w then Some (ttlByStatus (env w)) else None;
     cacheEverything := isEligibleForCache w |}.

(** [fetch()] up to the platform call: the instance after the rewrite, and
    the request and [cf] properties dispatched. *)
Definition fetch (w : WikiRequest) : WikiRequest * (Request * CfProperties) :=
  let w' := canonicalize w in
  (w', (req w', cfOf w')).

Definition outbound (w : WikiRequest) : Request := fst (snd (fetch w)).
Definition directive (w : WikiRequest) : CfProperties := snd (snd (fetch w)).

End Dispatcher.

(** ** The URL standard's [pathname] setter on an http(s) URL

    The runtime's [URL] class follows the URL Standard: an assignment to
    [pathname] runs the basic URL parser from the path start state, which
    drops tabs and newlines, cuts at slashes and backslashes, resolves dot
    segments and percent-encodes the code points of the path percent-encode
    set; reading [pathname] serialises the segments. *)

Module WHATWG.

Definition isTabOrNewline (c : ascii) : bool :=
  let n := nat_of_ascii c in
  Nat.eqb n 9 || Nat.eqb n 10 || Nat.eqb n 13.

Fixpoint removeTabsAndNewlines (s : string) : string :=
  match s with
  | EmptyString => EmptyString
  | String c s' =>
      if isTabOrNewline c then removeTabsAndNewlines s'
      else String c (removeTabsAndNewlines s')
  end.

(** The path percent-encode set. *)
Definition inPathPercentEncodeSet (c : ascii) : bool :=
  let n := nat_of_ascii c in
  Nat.leb n 31 || Nat.ltb 126 n
  || existsb (Nat.eqb n) [32; 34; 35; 60; 62; 63; 94; 96; 123; 125]%nat.

Definition hexDigit (n : nat) : ascii :=
  ascii_of_nat (if Nat.ltb n 10 then 48 + n else 55 + n).

Definition percentByte (n : nat) : string :=
  String "%" (String (hexDigit (n / 16)) (String (hexDigit (n mod 16)) EmptyString)).

(** Percent-encoding of the UTF-8 bytes of a code point below 256. *)
Definition utf8PercentEncode (c : ascii) : string :=
  let n := nat_of_ascii c in
  if Nat.ltb n 128 then percentByte n
  else percentByte (192 + n / 64) +:+ percentByte (128 + n mod 64).

Definition encodeCodePoint (c : ascii) : string :=
  if inPathPercentEncodeSet c then utf8PercentEncode c else String c EmptyString.

Definition isSingleDot (seg : string) : bool :=
  existsb (String.eqb seg) ["."; "%2e"; "%2E"].

Definition isDoubleDot (seg : string) : bool :=
  existsb (String.eqb seg)
    [".."; ".%2e"; ".%2E"; "%2e."; "%2E."; "%2e%2e"; "%2e%2E"; "%2E%2e"; "%2E%2E"].

Definition isSlash (c : ascii) : bool :=
  Ascii.eqb c "/" || Ascii.eqb c "\".

(** The path state of the basic URL parser with a state override. *)
Fixpoint pathState (input : string) (path : list string) (buffer : string) : list string :=
  match input with
  | EmptyString =>
      if isDoubleDot buffer then removelast path ++ [EmptyString]
      else if isSingleDot buffer then path ++ [EmptyString]
      else path ++ [buffer]
  | String c rest =>
      if isSlash c then
        pathState rest
          (if isDoubleDot buffer then removelast path
           else if isSingleDot buffer then path
           else path ++ [buffer])
          EmptyString
      else pathState rest path (buffer +:+ encodeCodePoint c)
  end.

(** The path start state: one leading slash is skipped. *)
Definition pathStartState (input : string) : list string :=
  match input with
  | String c rest => if isSlash c then pathState rest [] EmptyString
                     else pathState input [] EmptyString
  | EmptyString => pathState EmptyString [] EmptyString
  end.

(** The path serialiser. *)
Fixpoint serializePath (path : list string) : string :=
  match path with
  | [] => EmptyString
  | seg :: path' => "/" +:+ seg +:+ serializePath path'
  end.

Definition set_pathname (value : string) : string :=
  serializePath (pathStartState (removeTabsAndNewlines value)).

End WHATWG.

(** ** The extractor as the specification words it

    For each configured prefix, in configured order, the first candidate class
    name (in client order) that starts with the prefix, if there is one. *)

Definition firstWithPrefix (candidates : list string) (prefix : string) : option string :=
  find (fun c => JS.startsWith c prefix) candidates.

Definition extractPreferences (cookie : option string) (prefixes : list string)
    : list ClientPref :=
  match cookie with
  | None | Some EmptyString => []
  | Some value =>
      flat_map (fun prefix =>
                  match firstWithPrefix (classNamesOf value) prefix with
                  | Some c => [ {| className := c; classPrefix := prefix |} ]
                  | None => []
                  end) prefixes
  end.

(** ** Auxiliary predicates *)

(** Whether the code unit [c] occurs in [s]. *)
Fixpoint occurs (c : ascii) (s : string) : bool :=
  match s with
  | EmptyString => false
  | String d s' => Ascii.eqb d c || occurs c s'
  end.

(** The shape of every article the resolver builds: a non-empty title, and no
    colon in either component. *)
Definition resolvedShape (a : Article) : Prop :=
  title a <> "" /\ occurs ":" (ns a) = false /\ occurs ":" (title a) = false.

(** The number of configured prefixes, counted by position, whose first
    matching class name in the preference cookie is [c]. *)
Definition selectingPrefixes (w : WikiRequest) (c : string) : nat :=
  match cookies w !! CLIENT_PREFS_COOKIE_NAME (env w) with
  | None | Some EmptyString => 0
  | Some value =>
      length (filter (fun prefix => firstWithPrefix (classNamesOf value) prefix = Some c)
                     (CLIENT_PREFS_CLASS_PREFIXES (env w)))
  end.

(** ** Sample requests *)

Definition sampleEnv (cached prefixes : list string) : Env :=
  {| PRIVATE_COOKIE_NAMES := ["session"; "UserID"];
     CACHED_NAMESPACES := cached;
     CLIENT_PREFS_COOKIE_NAME := "mwclientpreferences";
     CLIENT_PREFS_CLASS_PREFIXES := prefixes;
     PAGE_TTL := 3600; MISSING_PAGE_TTL := 60 |}.

Definition sampleURL (path : string) (query : list (string * string)) : URL :=
  {| origin := "https://wiki.example"; pathname := path; searchParams := query |}.

Definition sampleRequest (e : Env) (header : option string) (jar : gmap string string)
    (path : string) (query : list (string * string)) : WikiRequest :=
  {| req := {| req_url := sampleURL path query; req_method := "GET";
               req_cookieHeader := header |};
     env := e; cookies := jar; url := sampleURL path query |}.

(** An anonymous [/index.php?title=Foo] with the main namespace cached. *)
Definition plainLookup : WikiRequest :=
  sampleRequest (sampleEnv [""] []) None ∅ "/index.php" [("title", "Foo")].

(** The same lookup from a logged-in client. *)
Definition privateLookup : WikiRequest :=
  sampleRequest (sampleEnv [""] []) (Some "session=abc") {[ "session" := "abc" ]}
    "/index.php" [("title", "Foo")].

(** A request whose private cookie is present with an empty value. *)
Definition emptySessionRequest : WikiRequest :=
  sampleRequest (sampleEnv [""] []) (Some "session=") {[ "session" := "" ]}
    "/w/Foo" [].

(** [/index.php?title=User talk:Foo] with the namespace [User talk] cached. *)
Definition userTalkLookup : WikiRequest :=
  sampleRequest (sampleEnv [""; "User talk"] []) None ∅
    "/index.php" [("title", "User talk:Foo")].

(** [/index.php?title=Help talk:Contents] with [Help talk] cached. *)
Definition helpTalkLookup : WikiRequest :=
  sampleRequest (sampleEnv ["Help talk"] []) None ∅
    "/index.php" [("title", "Help talk:Contents")].


(** A preference cookie under the prefixes of the specification's example. *)
Definition prefsRequest : WikiRequest :=
  sampleRequest (sampleEnv [""] ["mf-tabs-"; "mf-theme-"])
    (Some "mwclientpreferences=mf-tabs-enabled, foo-bar ,mf-theme-dark")
    {[ "mwclientpreferences" := "mf-tabs-enabled, foo-bar ,mf-theme-dark" ]}
    "/" [].

(** A preference cookie under two prefixes of which one extends the other. *)
Definition nestedPrefixRequest : WikiRequest :=
  sampleRequest (sampleEnv [""] ["mf-"; "mf-tabs-"])
    (Some "mwclientpreferences=mf-tabs-enabled")
    {[ "mwclientpreferences" := "mf-tabs-enabled" ]}
    "/" [].

(** ** Further auxiliary definitions *)

(** A query parameter the resolver or the evaluator looks at: [title] and
    the disqualifying keys. *)
Definition relevantParam (kv : string * string) : bool :=
  String.eqb (fst kv) "title"
  || existsb (String.eqb (fst kv)) DISQUALIFYING_QUERY_KEYS.

(** The part of the canonical path after [/w/]. *)
Definition canonicalSegment (a : Article) : string :=
  (if JS.truthy (Some (ns a)) then ns a +:+ ":" else "") +:+ title a.

(** Whether every code unit of [s] satisfies [P]. *)
Fixpoint allCodeUnits (P : ascii -> bool) (s : string) : bool :=
  match s with
  | EmptyString => true
  | String c s' => P c && allCodeUnits P s'
  end.

(** A code unit the path state copies as it is: not percent-encoded and not
    a separator. *)
Definition plainCodeUnit (c : ascii) : bool :=
  negb (WHATWG.inPathPercentEncodeSet c) && negb (WHATWG.isSlash c).

(** A path segment the path state stores as written. *)
Definition plainSegment (seg : string) : bool :=
  allCodeUnits plainCodeUnit seg
  && negb (WHATWG.isSingleDot seg) && negb (WHATWG.isDoubleDot seg).

(** [this] with another cookie mapping. *)
Definition withCookies (w : WikiRequest) (jar : gmap string string) : WikiRequest :=
  {| req := req w; env := env w; cookies := jar; url := url w |}.

(** [this] with other bindings. *)
Definition withEnv (w : WikiRequest) (e : Env) : WikiRequest :=
  {| req := req w; env := e; cookies := cookies w; url := url w |}.

(** A request to an entry point the resolver does not know. *)
Definition apiRequest : WikiRequest :=
  sampleRequest (sampleEnv [""] []) None ∅ "/api.php" [("action", "query")].

(** The lookup of [plainLookup] with a tracking parameter. *)
Definition trackedLookup : WikiRequest :=
  sampleRequest (sampleEnv [""] []) None ∅
    "/index.php" [("utm_source", "mail"); ("title", "Foo")].

(** A namespaced lookup, [/index.php?title=Help:Contents], with [Help]
    cached. *)
Definition helpLookup : WikiRequest :=
  sampleRequest (sampleEnv [""; "Help"] []) None ∅
    "/index.php" [("title", "Help:Contents")].

(** A string that is empty or starts with a code unit that is not white
    space. *)
Definition startsClean (s : string) : Prop :=
  match s with
  | EmptyString => True
  | String c _ => JS.isWhiteSpace c = false
  end.

(** [/index.php?action=edit&title=Foo] from an anonymous client. *)
Definition editRequest : WikiRequest :=
  sampleRequest (sampleEnv [""] []) None ∅
    "/index.php" [("action", "edit"); ("title", "Foo")].

(** * Properties *)

(** ** String primitives *)

Lemma truthy_Some_iff (v : option string) :
  JS.truthy v = true <-> exists s, v = Some s /\ s <> "".
Proof.
  split.
  - destruct v as [[|c s]|]; simpl; intros H; try discriminate.
    exists (String c s). split; [reflexivity | discriminate].
  - intros (s & -> & Hs). destruct s; [contradiction | reflexivity].
Qed.

Lemma truthy_false_iff (v : option string) :
  JS.truthy v = false <-> v = None \/ v = Some "".
Proof.
  destruct v as [[|c s]|]; simpl; split; intros H; try discriminate; auto.
  - destruct H as [H|H]; discriminate.
Qed.

Lemma split_not_nil sep s : JS.split sep s <> [].
Proof.
  destruct s as [|c s]; simpl; [discriminate|].
  destruct (Ascii.eqb c sep); [discriminate|].
  destruct (JS.split sep s); discriminate.
Qed.

Lemma split_single sep s p : JS.split sep s = [p] -> p = s.
Proof.
  revert p. induction s as [|c s IH]; simpl; intros p H.
  - congruence.
  - destruct (Ascii.eqb c sep).
    + injection H as _ H. exfalso. eapply split_not_nil; eauto.
    + destruct (JS.split sep s) as [|q qs] eqn:Hq.
      * exfalso. eapply split_not_nil; eauto.
      * injection H as <- ->. f_equal. apply IH. reflexivity.
Qed.

Lemma split_pieces_free sep s p :
  p ∈ JS.split sep s -> occurs sep p = false.
Proof.
  revert p. induction s as [|c s IH]; simpl; intros p Hp.
  - apply list_elem_of_singleton in Hp. subst p. reflexivity.
  - destruct (Ascii.eqb c sep) eqn:Hc.
    + apply elem_of_cons in Hp as [-> | Hp]; [reflexivity | auto].
    + destruct (JS.split sep s) as [|q qs] eqn:Hq.
      * apply list_elem_of_singleton in Hp. subst p. simpl. rewrite Hc. reflexivity.
      * apply elem_of_cons in Hp as [-> | Hp].
        -- simpl. rewrite Hc. simpl. apply IH. left.
        -- apply IH. right. exact Hp.
Qed.

Lemma split_free sep s : occurs sep s = false -> JS.split sep s = [s].
Proof.
  induction s as [|c s IH]; simpl; [reflexivity|].
  intros H. apply orb_false_iff in H as [Hc Hs].
  rewrite Hc, (IH Hs). reflexivity.
Qed.

Lemma split_app sep p s :
  occurs sep p = false ->
  JS.split sep (p +:+ String sep s) = p :: JS.split sep s.
Proof.
  induction p as [|c p IH]; simpl; intros H.
  - rewrite Ascii.eqb_refl. reflexivity.
  - apply orb_false_iff in H as [Hc Hp].
    rewrite Hc, (IH Hp). reflexivity.
Qed.

(** ** Article resolver *)

Lemma extractArticle_shape t a : extractArticle t = Some a -> resolvedShape a.
Proof.
  unfold extractArticle.
  destruct (JS.truthy t) eqn:Ht; simpl.
  - apply truthy_Some_iff in Ht as (s & -> & Hs). simpl.
    pose proof (split_pieces_free ":" s) as Hfree.
    destruct (JS.split ":" s) as [|p0 [|p1 ps]] eqn:Hsp.
    + exfalso. eapply split_not_nil; eauto.
    + simpl. intros [= <-]. repeat split; simpl.
      * apply split_single in Hsp. congruence.
      * apply Hfree. left.
    + simpl. destruct p1 as [|c p1]; [discriminate|].
      intros [= <-]. repeat split; simpl.
      * discriminate.
      * apply Hfree. left.
      * apply (Hfree (String c p1)). right. left.
  - intros [= <-]. repeat split; discriminate.
Qed.

Lemma targetArticle_shape w a : targetArticle w = Some a -> resolvedShape a.
Proof.
  unfold targetArticle.
  destruct (String.eqb _ "/index.php"); [apply extractArticle_shape|].
  destruct (String.eqb _ "/").
  - intros [= <-]. repeat split; discriminate.
  - destruct (JS.startsWith _ _); [apply extractArticle_shape | discriminate].
Qed.

Lemma append_assoc_char (n t : string) (c : ascii) :
  (n +:+ String c EmptyString) +:+ t = n +:+ String c t.
Proof.
  induction n as [|d m IH]; [reflexivity|].
  change (String d ((m +:+ String c EmptyString) +:+ t) = String d (m +:+ String c t)).
  f_equal. exact IH.
Qed.

Lemma canonicalPath_rest n t :
  JS.slice 3 (canonicalPath (mkArticle n t))
  = match n with
    | EmptyString => t
    | String _ _ => n +:+ String ":" t
    end.
Proof.
  destruct n as [|c n]; [reflexivity|].
  change (JS.slice 3 (canonicalPath (mkArticle (String c n) t)))
    with ((String c n +:+ ":") +:+ t).
  apply append_assoc_char.
Qed.

Lemma extractArticle_Some_cons c s :
  extractArticle (Some (String c s))
  = let parts := JS.split ":" (String c s) in
    match parts !! 1%nat with
    | Some EmptyString => None
    | None => Some {| ns := ""; title := default "" (parts !! 0%nat) |}
    | Some articleTitle =>
        Some {| ns := default "" (parts !! 0%nat); title := articleTitle |}
    end.
Proof. reflexivity. Qed.

(** An article of the resolver's shape is read back from its canonical path. *)
Lemma extractArticle_canonicalPath a :
  resolvedShape a ->
  extractArticle (Some (JS.slice 3 (canonicalPath a))) = Some a.
Proof.
  destruct a as [n t]. intros (Ht & Hn & Htc). simpl in Ht, Hn, Htc.
  rewrite canonicalPath_rest.
  destruct t as [|d t]; [contradiction|].
  destruct n as [|c n].
  - rewrite extractArticle_Some_cons.
    rewrite (split_free ":" _ Htc). reflexivity.
  - change (String c n +:+ String ":" (String d t))
      with (String c (n +:+ String ":" (String d t))).
    rewrite extractArticle_Some_cons.
    change (String c (n +:+ String ":" (String d t)))
      with (String c n +:+ String ":" (String d t)).
    rewrite (split_app ":" _ _ Hn), (split_free ":" _ Htc). reflexivity.
Qed.

(** ** Cache policy evaluator *)

Lemma hasPrivateCookie_true_iff (jar : gmap string string) (names : list string) :
  hasPrivateCookie jar names = true <->
  exists name v, name ∈ names /\ jar !! name = Some v /\ v <> "".
Proof.
  induction names as [|n names IH]; simpl.
  - split; [discriminate|]. intros (name & v & H & _). inversion H.
  - destruct (JS.truthy (jar !! n)) eqn:Hn.
    + split; [intros _ | reflexivity].
      apply truthy_Some_iff in Hn as (v & Hv & Hne).
      exists n, v. split; [left | auto].
    + rewrite IH. split.
      * intros (name & v & H & Hv). exists name, v. split; [right; exact H | exact Hv].
      * intros (name & v & H & Hv & Hne).
        apply elem_of_cons in H as [-> | H].
        -- assert (JS.truthy (jar !! n) = true)
             by (apply truthy_Some_iff; eauto).
           congruence.
        -- exists name, v. auto.
Qed.

Lemma hasPrivateCookie_false_iff (jar : gmap string string) (names : list string) :
  hasPrivateCookie jar names = false <->
  forall name, name ∈ names -> ~ exists v, jar !! name = Some v /\ v <> "".
Proof.
  rewrite <- not_true_iff_false, hasPrivateCookie_true_iff. split.
  - intros H name Hin (v & Hv). apply H. exists name, v. auto.
  - intros H (name & v & Hin & Hv). apply (H name Hin). eauto.
Qed.

Lemma includes_iff (l : list string) (s : string) : includes l s = true <-> s ∈ l.
Proof.
  unfold includes. rewrite existsb_exists, list_elem_of_In. split.
  - intros (x & Hx & He). apply String.eqb_eq in He. subst. exact Hx.
  - intros H. exists s. split; [exact H | apply String.eqb_refl].
Qed.

Lemma searchParams_has_iff (q : list (string * string)) (key : string) :
  searchParams_has q key = true <-> key ∈ q.*1.
Proof.
  unfold searchParams_has. rewrite existsb_exists, list_elem_of_fmap. split.
  - intros ([k v] & Hin & He). apply String.eqb_eq in He. simpl in He. subst.
    exists (key, v). split; [reflexivity | apply list_elem_of_In; exact Hin].
  - intros ([k v] & -> & Hin). exists (k, v).
    split; [apply list_elem_of_In; exact Hin | apply String.eqb_refl].
Qed.

Lemma noDisqualifyingKey_iff (q : list (string * string)) :
  existsb (fun key => searchParams_has q key) DISQUALIFYING_QUERY_KEYS = false <->
  forall key, key ∈ DISQUALIFYING_QUERY_KEYS -> key ∉ q.*1.
Proof.
  rewrite <- not_true_iff_false, existsb_exists. split.
  - intros H key Hin Hq. apply H. exists key.
    split; [apply list_elem_of_In; exact Hin | apply searchParams_has_iff; exact Hq].
  - intros H (key & Hin & Hq). apply (H key).
    + apply list_elem_of_In; exact Hin.
    + apply searchParams_has_iff; exact Hq.
Qed.

(** C1. [isEligibleForCache] is true exactly when (1) no name of
    [PRIVATE_COOKIE_NAMES] is bound to a non-empty value in the cookie
    mapping, (2) the target article is not null, (3) none of the seven
    disqualifying keys occurs in the query string, and (4) the namespace of
    the resolved article is a member of [CACHED_NAMESPACES]. *)
Theorem isEligibleForCache_iff (w : WikiRequest) :
  isEligibleForCache w = true <->
    (forall name, name ∈ PRIVATE_COOKIE_NAMES (env w) ->
       ~ exists v, cookies w !! name = Some v /\ v <> "")
    /\ targetArticle w <> None
    /\ (forall key,
          key ∈ ["action"; "veaction"; "diff"; "curid"; "oldid"; "debug"; "redirect"] ->
          key ∉ (searchParams (url w)).*1)
    /\ (exists a, targetArticle w = Some a /\ ns a ∈ CACHED_NAMESPACES (env w)).
Proof.
  change ["action"; "veaction"; "diff"; "curid"; "oldid"; "debug"; "redirect"]
    with DISQUALIFYING_QUERY_KEYS.
  rewrite <- hasPrivateCookie_false_iff, <- noDisqualifyingKey_iff.
  unfold isEligibleForCache.
  destruct (hasPrivateCookie _ _).
  - split; [discriminate | intros (H & _); discriminate].
  - destruct (targetArticle w) as [a|].
    + destruct (existsb _ DISQUALIFYING_QUERY_KEYS).
      * split; [discriminate | intros (_ & _ & H & _); discriminate].
      * destruct (includes _ _) eqn:Hinc; simpl.
        -- apply includes_iff in Hinc. split; [|reflexivity].
           intros _. repeat split; [discriminate|]. exists a. auto.
        -- split; [discriminate|]. intros (_ & _ & _ & b & [= <-] & Hb).
           apply includes_iff in Hb. congruence.
    + split; [discriminate | intros (_ & H & _); congruence].
Qed.

(** C10. A private cookie bound to the empty string has no effect on the
    verdict: the private-signal loop reaches its [return false] only for a
    name bound to a non-empty value, and the request is exactly as eligible
    as the same request without that cookie. *)
Theorem empty_private_cookie_passes (w : WikiRequest) (name : string) :
  name ∈ PRIVATE_COOKIE_NAMES (env w) ->
  cookies w !! name = Some "" ->
  (hasPrivateCookie (cookies w) (PRIVATE_COOKIE_NAMES (env w)) = true <->
     exists other v, other ∈ PRIVATE_COOKIE_NAMES (env w) /\ other <> name
                     /\ cookies w !! other = Some v /\ v <> "")
  /\ isEligibleForCache w
     = isEligibleForCache {| req := req w; env := env w;
                             cookies := delete name (cookies w); url := url w |}.
Proof.
  intros Hin Hname. split.
  - rewrite hasPrivateCookie_true_iff. split.
    + intros (other & v & Ho & Hv & Hne). exists other, v.
      repeat split; auto. intros ->. congruence.
    + intros (other & v & Ho & _ & Hv & Hne). exists other, v. auto.
  - unfold isEligibleForCache, targetArticle. simpl.
    assert (Heq : hasPrivateCookie (delete name (cookies w)) (PRIVATE_COOKIE_NAMES (env w))
                  = hasPrivateCookie (cookies w) (PRIVATE_COOKIE_NAMES (env w))).
    { clear Hin. induction (PRIVATE_COOKIE_NAMES (env w)) as [|n l IH]; simpl; [reflexivity|].
      rewrite IH. destruct (decide (n = name)) as [->|Hne].
      - rewrite lookup_delete_eq, Hname. reflexivity.
      - rewrite lookup_delete_ne by congruence. reflexivity. }
    rewrite Heq. reflexivity.
Qed.

(** ** Article resolver: totality and the title split *)

Lemma extractArticle_one_colon (n t : string) :
  occurs ":" n = false -> occurs ":" t = false -> t <> "" ->
  extractArticle (Some (n +:+ String ":" t)) = Some {| ns := n; title := t |}.
Proof.
  intros Hn Ht Hne.
  destruct n as [|c n].
  - change (("" : string) +:+ String ":" t) with (String ":" t).
    rewrite extractArticle_Some_cons.
    change (String ":" t) with (("" : string) +:+ String ":" t).
    rewrite (split_app ":" "" t Hn), (split_free ":" t Ht).
    destruct t; [contradiction | reflexivity].
  - change (String c n +:+ String ":" t) with (String c (n +:+ String ":" t)).
    rewrite extractArticle_Some_cons.
    change (String c (n +:+ String ":" t)) with (String c n +:+ String ":" t).
    rewrite (split_app ":" _ t Hn), (split_free ":" t Ht).
    destruct t; [contradiction | reflexivity].
Qed.

(** C8. Article resolution is total: on every request it yields null or an
    article (whose title is then non-empty), with no error case; the title
    [Foo:Bar] gives namespace [Foo] and title [Bar], [Foo:] gives null and
    [Foo] gives the main namespace with title [Foo], on the query-driven
    entry point as on the short path. *)
Theorem targetArticle_total (w : WikiRequest) :
  (targetArticle w = None \/ exists a, targetArticle w = Some a /\ title a <> "")
  /\ extractArticle (Some "Foo:Bar") = Some {| ns := "Foo"; title := "Bar" |}
  /\ extractArticle (Some "Foo:") = None
  /\ extractArticle (Some "Foo") = Some {| ns := ""; title := "Foo" |}
  /\ (forall e h jar,
        targetArticle (sampleRequest e h jar "/index.php" [("title", "Foo:Bar")])
          = Some {| ns := "Foo"; title := "Bar" |}
        /\ targetArticle (sampleRequest e h jar "/index.php" [("title", "Foo:")]) = None
        /\ targetArticle (sampleRequest e h jar "/index.php" [("title", "Foo")])
          = Some {| ns := ""; title := "Foo" |}
        /\ targetArticle (sampleRequest e h jar "/w/Foo:Bar" [])
          = Some {| ns := "Foo"; title := "Bar" |}
        /\ targetArticle (sampleRequest e h jar "/w/Foo:" []) = None
        /\ targetArticle (sampleRequest e h jar "/w/Foo" [])
          = Some {| ns := ""; title := "Foo" |}).
Proof.
  split.
  - destruct (targetArticle w) as [a|] eqn:Ha; [right | left; reflexivity].
    exists a. split; [reflexivity|].
    apply targetArticle_shape in Ha. apply Ha.
  - repeat split; reflexivity.
Qed.

(** C4 (fails on the code). [title.split(':')] cuts at every colon and the
    destructuring keeps the first two pieces: [A:B:C] resolves to namespace
    [A] and title [B], not [B:C]; [A::C] resolves to null; and an eligible
    [/index.php?title=A:B:C] is dispatched to [/w/A:B]. *)
Theorem extractArticle_cuts_at_second_colon :
  extractArticle (Some "A:B:C") = Some {| ns := "A"; title := "B" |}
  /\ extractArticle (Some "A::C") = None
  /\ pathname (req_url (outbound WHATWG.set_pathname
                 (sampleRequest (sampleEnv ["A"] []) None ∅
                    "/index.php" [("title", "A:B:C")])))
     = "/w/A:B".
Proof. repeat split; vm_compute; reflexivity. Qed.

(** ** Request normaliser and dispatcher *)

Lemma canonicalPath_not_index a : String.eqb (canonicalPath a) "/index.php" = false.
Proof. reflexivity. Qed.

Lemma canonicalPath_not_root a : String.eqb (canonicalPath a) "/" = false.
Proof. reflexivity. Qed.

Lemma canonicalPath_short a : JS.startsWith (canonicalPath a) "/w/" = true.
Proof.
  unfold JS.startsWith.
  change (canonicalPath a)
    with (String "/" (String "w" (String "/"
            ((if JS.truthy (Some (ns a)) then ns a +:+ ":" else "") +:+ title a)))).
  destruct ((if JS.truthy (Some (ns a)) then ns a +:+ ":" else "") +:+ title a);
    reflexivity.
Qed.

Lemma targetArticle_canonicalPath (w : WikiRequest) (a : Article) :
  pathname (url w) = canonicalPath a -> resolvedShape a ->
  targetArticle w = Some a.
Proof.
  intros Hp Ha. unfold targetArticle. rewrite Hp.
  rewrite canonicalPath_not_index, canonicalPath_not_root, canonicalPath_short.
  apply extractArticle_canonicalPath. exact Ha.
Qed.

Section DispatcherProperties.

Variable URL_set_pathname : string -> string.

Lemma canonicalize_unchanged (w : WikiRequest) :
  isEligibleForCache w = false \/ pathname (url w) <> "/index.php"
    \/ targetArticle w = None ->
  canonicalize URL_set_pathname w = w.
Proof.
  unfold canonicalize. intros [H | [H | H]].
  - rewrite H. reflexivity.
  - apply String.eqb_neq in H. rewrite H, andb_false_r. reflexivity.
  - rewrite H. destruct (_ && _ && _); reflexivity.
Qed.

Lemma canonicalize_rewrites (w : WikiRequest) (a : Article) :
  isEligibleForCache w = true -> pathname (url w) = "/index.php" ->
  targetArticle w = Some a ->
  canonicalize URL_set_pathname w
  = let url' := {| origin := origin (url w);
                   pathname := URL_set_pathname (canonicalPath a);
                   searchParams := [] |} in
    {| req := Request_new url' (req w); env := env w;
       cookies := cookies w; url := url' |}.
Proof.
  intros He Hp Ha. unfold canonicalize.
  rewrite Ha, He, Hp. reflexivity.
Qed.

(** Whether [fetch] rewrites is decided by the three tests of its [if]. *)
Lemma canonicalize_cases (w : WikiRequest) :
  (isEligibleForCache w = false \/ pathname (url w) <> "/index.php"
     \/ targetArticle w = None)
  \/ (exists a, isEligibleForCache w = true /\ pathname (url w) = "/index.php"
                /\ targetArticle w = Some a).
Proof.
  destruct (isEligibleForCache w); [|left; left; reflexivity].
  destruct (decide (pathname (url w) = "/index.php")) as [Hp|Hp];
    [|left; right; left; exact Hp].
  destruct (targetArticle w) as [a|]; [|left; right; right; reflexivity].
  right. exists a. auto.
Qed.

(** C2. Unless the request is eligible, entered through [/index.php] and
    has a resolved article, [fetch] dispatches the inbound request itself:
    same path, same query, and the instance's URL is untouched. In
    particular no ineligible request is canonicalised. *)
Theorem fetch_frame (w : WikiRequest) :
  isEligibleForCache w = false \/ pathname (url w) <> "/index.php"
    \/ targetArticle w = None ->
  outbound URL_set_pathname w = req w
  /\ pathname (req_url (outbound URL_set_pathname w)) = pathname (req_url (req w))
  /\ searchParams (req_url (outbound URL_set_pathname w))
     = searchParams (req_url (req w))
  /\ url (fst (fetch URL_set_pathname w)) = url w.
Proof.
  intros H. unfold outbound, fetch. simpl.
  rewrite (canonicalize_unchanged w H). auto.
Qed.

Lemma eligible_after_rewrite (w : WikiRequest) (a : Article) :
  isEligibleForCache w = true -> targetArticle w = Some a ->
  forall w', env w' = env w -> cookies w' = cookies w ->
             searchParams (url w') = [] -> targetArticle w' = Some a ->
             isEligibleForCache w' = true.
Proof.
  intros He Ha w' Henv Hc Hq Ha'.
  unfold isEligibleForCache in *.
  rewrite Henv, Hc, Hq, Ha'. rewrite Ha in He.
  destruct (hasPrivateCookie _ _); [discriminate|].
  destruct (existsb _ DISQUALIFYING_QUERY_KEYS); [discriminate|].
  simpl. exact He.
Qed.


Lemma ttlByStatus_lookup (e : Env) :
  ttlForStatus (ttlByStatus e) 200 = Some (PAGE_TTL e)
  /\ ttlForStatus (ttlByStatus e) 404 = Some (MISSING_PAGE_TTL e)
  /\ (forall s, (300 <= s <= 399)%Z \/ (500 <= s <= 599)%Z ->
                ttlForStatus (ttlByStatus e) s = Some (-1)%Z).
Proof.
  repeat split; try reflexivity.
  intros s Hs. unfold ttlByStatus, ttlForStatus, statusMatches.
  destruct (Z.eqb_spec s 200) as [->|_]; [lia|].
  destruct (Z.leb_spec 300 s), (Z.leb_spec s 399); simpl; try reflexivity;
    (destruct (Z.eqb_spec s 404) as [->|_]; [lia|]);
    destruct (Z.leb_spec 500 s), (Z.leb_spec s 599); simpl; try reflexivity; lia.
Qed.

End DispatcherProperties.

(** ** Client preference extractor *)

Lemma scanClassNames_first (p : string) (cs : list string) (acc : list ClientPref) :
  scanClassNames p cs acc
  = acc ++ match firstWithPrefix cs p with
           | Some c => [ {| className := c; classPrefix := p |} ]
           | None => []
           end.
Proof.
  unfold firstWithPrefix. induction cs as [|c cs IH]; simpl.
  - rewrite app_nil_r. reflexivity.
  - destruct (JS.startsWith c p); [reflexivity | exact IH].
Qed.

Lemma prefix_loop_flat_map (cs ps : list string) (acc : list ClientPref) :
  fold_left (fun clientPrefs classPrefix => scanClassNames classPrefix cs clientPrefs) ps acc
  = acc ++ flat_map (fun prefix =>
                       match firstWithPrefix cs prefix with
                       | Some c => [ {| className := c; classPrefix := prefix |} ]
                       | None => []
                       end) ps.
Proof.
  revert acc. induction ps as [|p ps IH]; intros acc; simpl.
  - rewrite app_nil_r. reflexivity.
  - rewrite IH, scanClassNames_first, <- app_assoc. reflexivity.
Qed.

Lemma getClientPrefs_extractPreferences (w : WikiRequest) :
  getClientPrefs w
  = extractPreferences (cookies w !! CLIENT_PREFS_COOKIE_NAME (env w))
      (CLIENT_PREFS_CLASS_PREFIXES (env w)).
Proof.
  unfold getClientPrefs, extractPreferences.
  destruct (cookies w !! CLIENT_PREFS_COOKIE_NAME (env w)) as [[|c v]|];
    try reflexivity.
  simpl. apply prefix_loop_flat_map.
Qed.

(** C9. [getClientPrefs] computes the extraction the specification words:
    nothing for an absent or empty cookie, otherwise, prefix by prefix in
    configured order, the first trimmed comma-separated token that starts
    with the prefix; on the cookie [mf-tabs-enabled, foo-bar ,mf-theme-dark]
    with prefixes [mf-tabs-] and [mf-theme-] it returns the two matching
    class names in prefix order. *)
Theorem getClientPrefs_first_match_per_prefix (w : WikiRequest) :
  getClientPrefs w
  = extractPreferences (cookies w !! CLIENT_PREFS_COOKIE_NAME (env w))
      (CLIENT_PREFS_CLASS_PREFIXES (env w))
  /\ getClientPrefs w
     = match cookies w !! CLIENT_PREFS_COOKIE_NAME (env w) with
       | None | Some EmptyString => []
       | Some value =>
           flat_map (fun prefix =>
                       match find (fun c => JS.startsWith c prefix)
                                  (map JS.trim (JS.split "," value)) with
                       | Some c => [ {| className := c; classPrefix := prefix |} ]
                       | None => []
                       end) (CLIENT_PREFS_CLASS_PREFIXES (env w))
       end
  /\ classNamesOf "mf-tabs-enabled, foo-bar ,mf-theme-dark"
     = ["mf-tabs-enabled"; "foo-bar"; "mf-theme-dark"]
  /\ getClientPrefs prefsRequest
     = [ {| className := "mf-tabs-enabled"; classPrefix := "mf-tabs-" |};
         {| className := "mf-theme-dark"; classPrefix := "mf-theme-" |} ].
Proof.
  split; [apply getClientPrefs_extractPreferences|].
  split; [apply getClientPrefs_extractPreferences|].
  split; vm_compute; reflexivity.
Qed.

Lemma className_count_selecting (cs ps : list string) (c : string) :
  count_occ string_dec
    (map className
       (flat_map (fun prefix =>
                    match firstWithPrefix cs prefix with
                    | Some c' => [ {| className := c'; classPrefix := prefix |} ]
                    | None => []
                    end) ps)) c
  = length (filter (fun prefix => firstWithPrefix cs prefix = Some c) ps).
Proof.
  induction ps as [|p ps IH]; [reflexivity|].
  cbn [flat_map]. rewrite map_app, count_occ_app, filter_cons, IH.
  destruct (firstWithPrefix cs p) as [c'|].
  - cbn [map className count_occ].
    destruct (string_dec c' c) as [->|Hne].
    + destruct (decide (Some c = Some c)) as [_|E]; [reflexivity | congruence].
    + destruct (decide (Some c' = Some c)) as [E|_]; [congruence | reflexivity].
  - destruct (decide (None = Some c)) as [E|_]; [discriminate | reflexivity].
Qed.

Lemma className_count (w : WikiRequest) (c : string) :
  count_occ string_dec (map className (getClientPrefs w)) c = selectingPrefixes w c.
Proof.
  rewrite getClientPrefs_extractPreferences.
  unfold extractPreferences, selectingPrefixes.
  destruct (cookies w !! CLIENT_PREFS_COOKIE_NAME (env w)) as [[|c0 v]|];
    try reflexivity.
  apply className_count_selecting.
Qed.

(** C6 (as amended). A class name appears in the list returned by
    [getClientPrefs] once for each configured prefix, counted by position,
    whose first matching trimmed token it is, and not otherwise; so each
    class name appears at most once if and only if no two configured
    prefixes select the same token. *)
Theorem className_once_per_selecting_prefix (w : WikiRequest) :
  (forall c, count_occ string_dec (map className (getClientPrefs w)) c
             = selectingPrefixes w c)
  /\ (NoDup (map className (getClientPrefs w))
      <-> forall c, selectingPrefixes w c <= 1).
Proof.
  split; [apply className_count|].
  rewrite NoDup_ListNoDup, (NoDup_count_occ string_dec). split.
  - intros H c. rewrite <- className_count. apply H.
  - intros H c. rewrite className_count. apply H.
Qed.

(** * The properties at sample requests *)

Lemma empty_private_cookie_passes_at_sample :
  cookies emptySessionRequest !! "session" = Some ""
  /\ isEligibleForCache emptySessionRequest = true
  /\ hasPrivateCookie (cookies emptySessionRequest)
       (PRIVATE_COOKIE_NAMES (env emptySessionRequest)) = false.
Proof.
  assert (Hin : "session" ∈ PRIVATE_COOKIE_NAMES (env emptySessionRequest))
    by (vm_compute; left).
  assert (Hc : cookies emptySessionRequest !! "session" = Some "")
    by (vm_compute; reflexivity).
  destruct (empty_private_cookie_passes emptySessionRequest "session" Hin Hc)
    as [_ He].
  split; [exact Hc|]. split.
  - rewrite He. vm_compute. reflexivity.
  - vm_compute. reflexivity.
Defined.

Lemma fetch_frame_at_private_lookup :
  isEligibleForCache privateLookup = false
  /\ outbound WHATWG.set_pathname privateLookup = req privateLookup.
Proof.
  assert (H : isEligibleForCache privateLookup = false) by (vm_compute; reflexivity).
  split; [exact H|].
  exact (proj1 (fetch_frame WHATWG.set_pathname privateLookup (or_introl H))).
Defined.


(** * Where the code departs from the stated properties *)

(** C3 (fails on the code). [fetch] reads [isEligibleForCache] again after
    it has rewritten [this.url], and the verdict changes: the inbound
    [/index.php?title=User talk:Foo] is eligible, the rewrite stores
    [/w/User%20talk:Foo], and the eligibility recomputed for the cache
    directive is false. *)
Lemma recomputed_eligibility_differs :
  isEligibleForCache userTalkLookup = true
  /\ pathname (url (fst (fetch WHATWG.set_pathname userTalkLookup)))
     = "/w/User%20talk:Foo"
  /\ isEligibleForCache (fst (fetch WHATWG.set_pathname userTalkLookup)) = false
  /\ cacheEverything (directive WHATWG.set_pathname userTalkLookup) = false.
Proof. repeat split; vm_compute; reflexivity. Qed.


(** C6 as stated fails: with the prefixes [mf-] and [mf-tabs-] the class name
    [mf-tabs-enabled] is returned twice. *)
Lemma className_listed_twice :
  getClientPrefs nestedPrefixRequest
  = [ {| className := "mf-tabs-enabled"; classPrefix := "mf-" |};
      {| className := "mf-tabs-enabled"; classPrefix := "mf-tabs-" |} ]
  /\ ~ NoDup (map className (getClientPrefs nestedPrefixRequest)).
Proof.
  assert (H : getClientPrefs nestedPrefixRequest
              = [ {| className := "mf-tabs-enabled"; classPrefix := "mf-" |};
                  {| className := "mf-tabs-enabled"; classPrefix := "mf-tabs-" |} ])
    by (vm_compute; reflexivity).
  split; [exact H|]. rewrite H. simpl. intros Hnd.
  apply NoDup_cons in Hnd as [Hnot _]. apply Hnot. left.
Qed.

(** C7 (fails on the code). An eligible
    [/index.php?title=Help talk:Contents] is rewritten, because it is
    eligible, to [/w/Help%20talk:Contents] with an empty query, and is then
    dispatched without a TTL table and with [cacheEverything] unset. *)
Lemma eligible_request_without_directive :
  isEligibleForCache helpTalkLookup = true
  /\ pathname (req_url (outbound WHATWG.set_pathname helpTalkLookup))
     = "/w/Help%20talk:Contents"
  /\ searchParams (req_url (outbound WHATWG.set_pathname helpTalkLookup)) = []
  /\ directive WHATWG.set_pathname helpTalkLookup
     = {| cacheTtlByStatus := None; cacheEverything := false |}.
Proof. repeat split; vm_compute; reflexivity. Qed.

(** * Further properties of the class *)

(** ** Resolver *)

(** X1. Every article the resolver returns has a non-empty title, and
    neither its namespace nor its title contains a colon. *)
Theorem resolved_article_has_no_colon (w : WikiRequest) (a : Article) :
  targetArticle w = Some a ->
  title a <> "" /\ occurs ":" (ns a) = false /\ occurs ":" (title a) = false.
Proof. intros H. exact (targetArticle_shape w a H). Qed.

Lemma resolved_article_has_no_colon_at_help_lookup :
  targetArticle helpLookup = Some {| ns := "Help"; title := "Contents" |}
  /\ occurs ":" "Help" = false /\ occurs ":" "Contents" = false.
Proof.
  assert (H : targetArticle helpLookup = Some {| ns := "Help"; title := "Contents" |})
    by (vm_compute; reflexivity).
  split; [exact H|].
  exact (proj2 (resolved_article_has_no_colon helpLookup _ H)).
Defined.

Section PassThrough.

Variable URL_set_pathname : string -> string.

(** X2. A request whose path is neither [/index.php], nor [/], nor under
    [/w/] has no target article, is not eligible, and is dispatched as
    received with no TTL table and [cacheEverything] unset. *)
Theorem unknown_path_passes_through (w : WikiRequest) :
  pathname (url w) <> "/index.php" -> pathname (url w) <> "/" ->
  JS.startsWith (pathname (url w)) "/w/" = false ->
  targetArticle w = None
  /\ isEligibleForCache w = false
  /\ outbound URL_set_pathname w = req w
  /\ directive URL_set_pathname w
     = {| cacheTtlByStatus := None; cacheEverything := false |}.
Proof.
  intros Hi Hr Hw.
  assert (Ha : targetArticle w = None).
  { unfold targetArticle. apply String.eqb_neq in Hi, Hr.
    rewrite Hi, Hr, Hw. reflexivity. }
  assert (He : isEligibleForCache w = false).
  { unfold isEligibleForCache. rewrite Ha.
    destruct (hasPrivateCookie _ _); reflexivity. }
  repeat split; try assumption.
  - unfold outbound, fetch. simpl.
    rewrite (canonicalize_unchanged URL_set_pathname w (or_introl He)). reflexivity.
  - unfold directive, fetch, cfOf. simpl.
    rewrite (canonicalize_unchanged URL_set_pathname w (or_introl He)), He.
    reflexivity.
Qed.

End PassThrough.

Lemma unknown_path_passes_through_at_api :
  outbound WHATWG.set_pathname apiRequest = req apiRequest
  /\ directive WHATWG.set_pathname apiRequest
     = {| cacheTtlByStatus := None; cacheEverything := false |}.
Proof.
  assert (Hi : pathname (url apiRequest) <> "/index.php") by discriminate.
  assert (Hr : pathname (url apiRequest) <> "/") by discriminate.
  assert (Hw : JS.startsWith (pathname (url apiRequest)) "/w/" = false)
    by (vm_compute; reflexivity).
  destruct (unknown_path_passes_through WHATWG.set_pathname apiRequest Hi Hr Hw)
    as (_ & _ & Ho & Hd).
  split; [exact Ho | exact Hd].
Defined.

(** ** Evaluator *)

Lemma hasPrivateCookie_ext (jar jar' : gmap string string) (names : list string) :
  (forall name, name ∈ names -> JS.truthy (jar !! name) = JS.truthy (jar' !! name)) ->
  hasPrivateCookie jar names = hasPrivateCookie jar' names.
Proof.
  induction names as [|n names IH]; intros H; simpl; [reflexivity|].
  rewrite (H n) by left. rewrite IH; [reflexivity|].
  intros name Hin. apply H. right. exact Hin.
Qed.

(** X3. The verdict depends on the cookies only through the names of
    [PRIVATE_COOKIE_NAMES]: two cookie mappings that are truthy on the same
    private names give the same verdict, whatever else they hold. *)
Theorem eligibility_ignores_other_cookies (w : WikiRequest) (jar : gmap string string) :
  (forall name, name ∈ PRIVATE_COOKIE_NAMES (env w) ->
     JS.truthy (jar !! name) = JS.truthy (cookies w !! name)) ->
  isEligibleForCache (withCookies w jar) = isEligibleForCache w.
Proof.
  intros H. unfold isEligibleForCache, withCookies, targetArticle. simpl.
  rewrite (hasPrivateCookie_ext jar (cookies w) _ H). reflexivity.
Qed.

Lemma eligibility_ignores_other_cookies_at_plain_lookup :
  isEligibleForCache (withCookies plainLookup {[ "theme" := "dark" ]}) = true.
Proof.
  rewrite (eligibility_ignores_other_cookies plainLookup {[ "theme" := "dark" ]}).
  - vm_compute. reflexivity.
  - intros name Hin. vm_compute in Hin.
    apply elem_of_cons in Hin as [-> | Hin]; [vm_compute; reflexivity|].
    apply elem_of_cons in Hin as [-> | Hin]; [vm_compute; reflexivity|].
    inversion Hin.
Defined.

Lemma searchParams_get_filter (keep : string * string -> bool)
    (q : list (string * string)) (key : string) :
  (forall v, keep (key, v) = true) ->
  searchParams_get (List.filter keep q) key = searchParams_get q key.
Proof.
  intros Hk. induction q as [|[k v] q IH]; simpl; [reflexivity|].
  destruct (String.eqb k key) eqn:He.
  - apply String.eqb_eq in He. subst k. rewrite Hk. simpl.
    rewrite String.eqb_refl. reflexivity.
  - destruct (keep (k, v)); simpl; [rewrite He|]; exact IH.
Qed.

Lemma searchParams_has_filter (keep : string * string -> bool)
    (q : list (string * string)) (key : string) :
  (forall v, keep (key, v) = true) ->
  searchParams_has (List.filter keep q) key = searchParams_has q key.
Proof.
  intros Hk. unfold searchParams_has.
  induction q as [|[k v] q IH]; simpl; [reflexivity|].
  destruct (String.eqb k key) eqn:He.
  - apply String.eqb_eq in He. subst k. rewrite Hk. simpl.
    rewrite String.eqb_refl. reflexivity.
  - destruct (keep (k, v)); simpl; [rewrite He|]; exact IH.
Qed.

Lemma existsb_ext_in {A : Type} (f g : A -> bool) (l : list A) :
  (forall x, In x l -> f x = g x) -> existsb f l = existsb g l.
Proof.
  induction l as [|x l IH]; intros H; simpl; [reflexivity|].
  rewrite (H x) by (left; reflexivity). rewrite IH; [reflexivity|].
  intros y Hy. apply H. right. exact Hy.
Qed.

Lemma relevantParam_title v : relevantParam ("title", v) = true.
Proof. reflexivity. Qed.

Lemma relevantParam_disqualifying key v :
  In key DISQUALIFYING_QUERY_KEYS -> relevantParam (key, v) = true.
Proof.
  intros H. unfold relevantParam. simpl fst.
  apply orb_true_iff. right. apply existsb_exists.
  exists key. split; [exact H | apply String.eqb_refl].
Qed.

Lemma targetArticle_relevant (w : WikiRequest) :
  targetArticle w
  = if String.eqb (pathname (url w)) "/index.php" then
      extractArticle (searchParams_get (List.filter relevantParam (searchParams (url w))) "title")
    else if String.eqb (pathname (url w)) "/" then Some Main_Page
    else if JS.startsWith (pathname (url w)) "/w/" then
      extractArticle (Some (JS.slice 3 (pathname (url w))))
    else None.
Proof.
  unfold targetArticle.
  rewrite (searchParams_get_filter relevantParam _ "title" relevantParam_title).
  reflexivity.
Qed.

Lemma disqualifying_relevant (q : list (string * string)) :
  existsb (fun key => searchParams_has q key) DISQUALIFYING_QUERY_KEYS
  = existsb (fun key => searchParams_has (List.filter relevantParam q) key)
      DISQUALIFYING_QUERY_KEYS.
Proof.
  apply existsb_ext_in. intros key Hin. symmetry.
  apply searchParams_has_filter. intros v.
  apply relevantParam_disqualifying. exact Hin.
Qed.

(** X4. The resolver and the evaluator read the query only through [title]
    and the seven disqualifying keys: two requests with the same bindings,
    cookies and path whose queries agree on those parameters (in order)
    resolve to the same article and get the same verdict. *)
Theorem eligibility_ignores_other_params (w1 w2 : WikiRequest) :
  env w1 = env w2 -> cookies w1 = cookies w2 ->
  pathname (url w1) = pathname (url w2) ->
  List.filter relevantParam (searchParams (url w1))
    = List.filter relevantParam (searchParams (url w2)) ->
  targetArticle w1 = targetArticle w2
  /\ isEligibleForCache w1 = isEligibleForCache w2.
Proof.
  intros He Hc Hp Hq.
  assert (Ha : targetArticle w1 = targetArticle w2).
  { rewrite (targetArticle_relevant w1), (targetArticle_relevant w2), Hp, Hq.
    reflexivity. }
  split; [exact Ha|].
  unfold isEligibleForCache.
  rewrite Ha, He, Hc.
  rewrite (disqualifying_relevant (searchParams (url w1))),
          (disqualifying_relevant (searchParams (url w2))), Hq.
  reflexivity.
Qed.

Lemma eligibility_ignores_other_params_at_tracked_lookup :
  targetArticle trackedLookup = targetArticle plainLookup
  /\ isEligibleForCache trackedLookup = isEligibleForCache plainLookup.
Proof.
  apply (eligibility_ignores_other_params trackedLookup plainLookup);
    vm_compute; reflexivity.
Defined.

(** ** Dispatcher *)

Section DispatcherInvariants.

Variable URL_set_pathname : string -> string.

(** X6. [fetch] keeps the instance in step with its request: when
    [this.url] is the URL of [this.req], as the constructor assigns it,
    then after [fetch] the instance holds the dispatched request, the same
    bindings and cookies, and [this.url] is the URL of the dispatched
    request; so the [cacheEverything] flag sent along is the eligibility
    of the request that is actually dispatched, whatever the platform does
    to the path. *)
Theorem fetch_keeps_instance_in_step (w : WikiRequest) :
  url w = req_url (req w) ->
  fst (fetch URL_set_pathname w)
    = {| req := outbound URL_set_pathname w; env := env w; cookies := cookies w;
         url := req_url (outbound URL_set_pathname w) |}
  /\ cacheEverything (directive URL_set_pathname w)
     = isEligibleForCache
         {| req := outbound URL_set_pathname w; env := env w; cookies := cookies w;
            url := req_url (outbound URL_set_pathname w) |}.
Proof.
  intros Hu.
  assert (H : canonicalize URL_set_pathname w
              = {| req := req (canonicalize URL_set_pathname w); env := env w;
                   cookies := cookies w;
                   url := req_url (req (canonicalize URL_set_pathname w)) |}).
  { destruct (canonicalize_cases w) as [Hno | (a & He & Hp & Ha)].
    - rewrite (canonicalize_unchanged URL_set_pathname w Hno), <- Hu.
      destruct w; reflexivity.
    - rewrite (canonicalize_rewrites URL_set_pathname w a He Hp Ha). reflexivity. }
  unfold outbound, directive, fetch, cfOf. simpl.
  split; [exact H | rewrite <- H; reflexivity].
Qed.

(** X19. An eligible request that is not on [/index.php] (the root path or
    a path under [/w/]) is dispatched as received, with the TTL table,
    which gives [PAGE_TTL] to status 200, [MISSING_PAGE_TTL] to 404 and -1
    to 300-399 and 500-599, and with [cacheEverything] set. *)
Theorem eligible_short_path_gets_table (w : WikiRequest) :
  isEligibleForCache w = true -> pathname (url w) <> "/index.php" ->
  outbound URL_set_pathname w = req w
  /\ directive URL_set_pathname w
     = {| cacheTtlByStatus := Some (ttlByStatus (env w)); cacheEverything := true |}
  /\ ttlForStatus (ttlByStatus (env w)) 200 = Some (PAGE_TTL (env w))
  /\ ttlForStatus (ttlByStatus (env w)) 404 = Some (MISSING_PAGE_TTL (env w))
  /\ (forall s, (300 <= s <= 399)%Z \/ (500 <= s <= 599)%Z ->
                ttlForStatus (ttlByStatus (env w)) s = Some (-1)%Z).
Proof.
  intros He Hp.
  assert (Hc : canonicalize URL_set_pathname w = w)
    by (apply canonicalize_unchanged; right; left; exact Hp).
  split; [unfold outbound, fetch; simpl; rewrite Hc; reflexivity|].
  split; [|apply ttlByStatus_lookup].
  unfold directive, fetch, cfOf. simpl. rewrite Hc, He. reflexivity.
Qed.

(** X7. [fetch] changes nothing but the path and the query: the method and
    the [Cookie] header of the dispatched request are those of the request
    held before, and the bindings, the cookie mapping and the origin of the
    instance stay as they were. *)
Theorem fetch_keeps_method_and_cookies (w : WikiRequest) :
  req_method (outbound URL_set_pathname w) = req_method (req w)
  /\ req_cookieHeader (outbound URL_set_pathname w) = req_cookieHeader (req w)
  /\ env (fst (fetch URL_set_pathname w)) = env w
  /\ cookies (fst (fetch URL_set_pathname w)) = cookies w
  /\ origin (url (fst (fetch URL_set_pathname w))) = origin (url w).
Proof.
  unfold outbound, fetch. simpl.
  destruct (canonicalize_cases w) as [Hno | (a & He & Hp & Ha)].
  - rewrite (canonicalize_unchanged URL_set_pathname w Hno). auto.
  - rewrite (canonicalize_rewrites URL_set_pathname w a He Hp Ha). simpl. auto.
Qed.

(** X8. Canonicalisation gives one cache key per article: two eligible
    [/index.php] requests that resolve to the same article are dispatched
    with the same path and with an empty query, however their queries were
    spelled. *)
Theorem same_article_same_outbound_path (w1 w2 : WikiRequest) (a : Article) :
  isEligibleForCache w1 = true -> isEligibleForCache w2 = true ->
  pathname (url w1) = "/index.php" -> pathname (url w2) = "/index.php" ->
  targetArticle w1 = Some a -> targetArticle w2 = Some a ->
  pathname (req_url (outbound URL_set_pathname w1))
    = pathname (req_url (outbound URL_set_pathname w2))
  /\ searchParams (req_url (outbound URL_set_pathname w1)) = []
  /\ searchParams (req_url (outbound URL_set_pathname w2)) = [].
Proof.
  intros He1 He2 Hp1 Hp2 Ha1 Ha2. unfold outbound, fetch. simpl.
  rewrite (canonicalize_rewrites URL_set_pathname w1 a He1 Hp1 Ha1).
  rewrite (canonicalize_rewrites URL_set_pathname w2 a He2 Hp2 Ha2).
  simpl. auto.
Qed.

End DispatcherInvariants.

Lemma fetch_keeps_instance_in_step_at_plain_lookup :
  url (fst (fetch WHATWG.set_pathname plainLookup))
    = req_url (outbound WHATWG.set_pathname plainLookup)
  /\ cacheEverything (directive WHATWG.set_pathname plainLookup) = true.
Proof.
  destruct (fetch_keeps_instance_in_step WHATWG.set_pathname plainLookup eq_refl)
    as [H1 H2].
  split; [rewrite H1; reflexivity | vm_compute; reflexivity].
Defined.

Lemma eligible_short_path_gets_table_at_sample :
  outbound WHATWG.set_pathname emptySessionRequest = req emptySessionRequest
  /\ directive WHATWG.set_pathname emptySessionRequest
     = {| cacheTtlByStatus :=
            Some [ (Status 200, 3600%Z); (StatusRange 300 399, (-1)%Z);
                   (Status 404, 60%Z); (StatusRange 500 599, (-1)%Z) ];
          cacheEverything := true |}.
Proof.
  assert (He : isEligibleForCache emptySessionRequest = true)
    by (vm_compute; reflexivity).
  assert (Hp : pathname (url emptySessionRequest) <> "/index.php") by discriminate.
  destruct (eligible_short_path_gets_table WHATWG.set_pathname
              emptySessionRequest He Hp) as (H1 & H2 & _).
  split; [exact H1 | exact H2].
Defined.

Lemma same_article_same_outbound_path_at_tracked_lookup :
  pathname (req_url (outbound WHATWG.set_pathname trackedLookup))
    = pathname (req_url (outbound WHATWG.set_pathname plainLookup))
  /\ searchParams (req_url (outbound WHATWG.set_pathname trackedLookup)) = []
  /\ searchParams (req_url (outbound WHATWG.set_pathname plainLookup)) = [].
Proof.
  apply (same_article_same_outbound_path WHATWG.set_pathname
           trackedLookup plainLookup {| ns := ""; title := "Foo" |});
    vm_compute; reflexivity.
Defined.

(** X9. Distinct articles have distinct canonical paths: if two resolved
    articles are written to the same path by the template of [fetch], they
    are the same article. *)
Theorem canonicalPath_separates_articles (w1 w2 : WikiRequest) (a b : Article) :
  targetArticle w1 = Some a -> targetArticle w2 = Some b ->
  canonicalPath a = canonicalPath b ->
  a = b.
Proof.
  intros Ha Hb Hp.
  pose proof (extractArticle_canonicalPath a (targetArticle_shape w1 a Ha)) as Ea.
  pose proof (extractArticle_canonicalPath b (targetArticle_shape w2 b Hb)) as Eb.
  rewrite Hp in Ea. congruence.
Qed.

Lemma canonicalPath_separates_articles_at_samples :
  targetArticle trackedLookup = Some {| ns := ""; title := "Foo" |}
  /\ targetArticle plainLookup = Some {| ns := ""; title := "Foo" |}
  /\ {| ns := ""; title := "Foo" |} = {| ns := ""; title := "Foo" |}.
Proof.
  assert (Ha : targetArticle trackedLookup = Some {| ns := ""; title := "Foo" |})
    by (vm_compute; reflexivity).
  assert (Hb : targetArticle plainLookup = Some {| ns := ""; title := "Foo" |})
    by (vm_compute; reflexivity).
  exact (conj Ha (conj Hb
           (canonicalPath_separates_articles trackedLookup plainLookup _ _
              Ha Hb eq_refl))).
Defined.

(** X10. Eligibility grows with the configuration: a request that is
    eligible stays eligible when namespaces are added to
    [CACHED_NAMESPACES] and names are removed from
    [PRIVATE_COOKIE_NAMES]. *)
Theorem eligibility_monotone_in_config (w : WikiRequest) (e : Env) :
  (forall name, name ∈ PRIVATE_COOKIE_NAMES e -> name ∈ PRIVATE_COOKIE_NAMES (env w)) ->
  (forall n, n ∈ CACHED_NAMESPACES (env w) -> n ∈ CACHED_NAMESPACES e) ->
  isEligibleForCache w = true ->
  isEligibleForCache (withEnv w e) = true.
Proof.
  intros Hpriv Hcached. unfold isEligibleForCache, withEnv.
  cbn [env cookies url].
  change (targetArticle {| req := req w; env := e; cookies := cookies w; url := url w |})
    with (targetArticle w).
  destruct (hasPrivateCookie (cookies w) (PRIVATE_COOKIE_NAMES (env w))) eqn:H1;
    [discriminate|].
  assert (H2 : hasPrivateCookie (cookies w) (PRIVATE_COOKIE_NAMES e) = false).
  { apply hasPrivateCookie_false_iff. intros name Hin.
    apply (proj1 (hasPrivateCookie_false_iff _ _) H1). apply Hpriv. exact Hin. }
  rewrite H2.
  destruct (targetArticle w) as [a|]; [|discriminate].
  destruct (existsb _ DISQUALIFYING_QUERY_KEYS); [discriminate|].
  destruct (includes (CACHED_NAMESPACES (env w)) (ns a)) eqn:H3; [|discriminate].
  apply includes_iff, Hcached, includes_iff in H3. rewrite H3. reflexivity.
Qed.

Lemma eligibility_monotone_in_config_at_plain_lookup :
  isEligibleForCache
    (withEnv plainLookup
       {| PRIVATE_COOKIE_NAMES := ["session"]; CACHED_NAMESPACES := [""; "Help"];
          CLIENT_PREFS_COOKIE_NAME := "mwclientpreferences";
          CLIENT_PREFS_CLASS_PREFIXES := []; PAGE_TTL := 3600;
          MISSING_PAGE_TTL := 60 |}) = true.
Proof.
  apply eligibility_monotone_in_config.
  - intros name Hin. vm_compute in Hin |- *.
    apply elem_of_cons in Hin as [-> | Hin]; [left | inversion Hin].
  - intros n Hin. vm_compute in Hin |- *.
    apply elem_of_cons in Hin as [-> | Hin]; [left | inversion Hin].
  - vm_compute. reflexivity.
Defined.

(** ** Extractor *)

Lemma find_first {A : Type} (f : A -> bool) (l : list A) (x : A) :
  find f l = Some x ->
  exists l1 l2, l = l1 ++ x :: l2 /\ f x = true /\ forall y, In y l1 -> f y = false.
Proof.
  induction l as [|y l IH]; simpl; [discriminate|].
  destruct (f y) eqn:Hy.
  - intros [= ->]. exists [], l. repeat split; [exact Hy | intros z []].
  - intros H. destruct (IH H) as (l1 & l2 & -> & Hx & Hl1).
    exists (y :: l1), l2. repeat split; [exact Hx|].
    intros z [<- | Hz]; [exact Hy | apply Hl1; exact Hz].
Qed.

Lemma extractPreferences_prefix_sublist (cs ps : list string) :
  map classPrefix
    (flat_map (fun prefix =>
                 match firstWithPrefix cs prefix with
                 | Some c => [ {| className := c; classPrefix := prefix |} ]
                 | None => []
                 end) ps)
  `sublist_of` ps.
Proof.
  induction ps as [|p ps IH]; simpl; [constructor|].
  destruct (firstWithPrefix cs p); simpl.
  - apply sublist_skip. exact IH.
  - apply sublist_cons. exact IH.
Qed.

(** X11. The prefixes of the returned preferences, read in order, are
    configured prefixes in configured order, each position of the
    configuration used at most once; so the list is never longer than
    [CLIENT_PREFS_CLASS_PREFIXES]. *)
Theorem prefs_follow_prefix_order (w : WikiRequest) :
  map classPrefix (getClientPrefs w) `sublist_of` CLIENT_PREFS_CLASS_PREFIXES (env w)
  /\ length (getClientPrefs w) <= length (CLIENT_PREFS_CLASS_PREFIXES (env w)).
Proof.
  assert (H : map classPrefix (getClientPrefs w)
              `sublist_of` CLIENT_PREFS_CLASS_PREFIXES (env w)).
  { rewrite getClientPrefs_extractPreferences. unfold extractPreferences.
    destruct (cookies w !! CLIENT_PREFS_COOKIE_NAME (env w)) as [[|c v]|];
      try apply sublist_nil_l.
    apply extractPreferences_prefix_sublist. }
  split; [exact H|].
  apply sublist_length in H. rewrite length_map in H. exact H.
Qed.

Lemma getClientPrefs_elem (w : WikiRequest) (p : ClientPref) :
  p ∈ getClientPrefs w ->
  exists value,
    cookies w !! CLIENT_PREFS_COOKIE_NAME (env w) = Some value
    /\ value <> ""
    /\ classPrefix p ∈ CLIENT_PREFS_CLASS_PREFIXES (env w)
    /\ firstWithPrefix (classNamesOf value) (classPrefix p) = Some (className p).
Proof.
  rewrite getClientPrefs_extractPreferences. unfold extractPreferences.
  destruct (cookies w !! CLIENT_PREFS_COOKIE_NAME (env w)) as [[|c v]|];
    try (intros H; inversion H; fail).
  intros H. apply list_elem_of_In, in_flat_map in H as (prefix & Hin & Hp).
  exists (String c v). split; [reflexivity|]. split; [discriminate|].
  destruct (firstWithPrefix (classNamesOf (String c v)) prefix) as [c'|] eqn:Hf;
    simpl in Hp; [|contradiction].
  destruct Hp as [<- | []]. simpl.
  split; [apply list_elem_of_In; exact Hin | exact Hf].
Qed.

(** X12. Every returned preference pairs a configured prefix with the
    first class name of the cookie that starts with it: the class name
    starts with the prefix, and no trimmed token before it in the cookie
    does. *)
Theorem pref_is_first_match (w : WikiRequest) (p : ClientPref) :
  p ∈ getClientPrefs w ->
  exists value before after,
    cookies w !! CLIENT_PREFS_COOKIE_NAME (env w) = Some value
    /\ classNamesOf value = before ++ className p :: after
    /\ (forall c, c ∈ before -> JS.startsWith c (classPrefix p) = false)
    /\ JS.startsWith (className p) (classPrefix p) = true
    /\ classPrefix p ∈ CLIENT_PREFS_CLASS_PREFIXES (env w).
Proof.
  intros H. destruct (getClientPrefs_elem w p H) as (value & Hv & _ & Hpre & Hf).
  apply find_first in Hf as (l1 & l2 & Hl & Hs & Hb).
  exists value, l1, l2. repeat split; try assumption.
  intros c Hc. apply Hb, list_elem_of_In. exact Hc.
Qed.

Lemma pref_is_first_match_at_sample :
  {| className := "mf-theme-dark"; classPrefix := "mf-theme-" |}
    ∈ getClientPrefs prefsRequest
  /\ JS.startsWith "mf-theme-dark" "mf-theme-" = true.
Proof.
  assert (H : {| className := "mf-theme-dark"; classPrefix := "mf-theme-" |}
                ∈ getClientPrefs prefsRequest)
    by (vm_compute; right; left).
  split; [exact H|].
  destruct (pref_is_first_match prefsRequest _ H)
    as (value & before & after & _ & _ & _ & Hs & _).
  exact Hs.
Defined.

(** X13. No configured prefix is passed over: when the cookie is present
    and non-empty and some trimmed token starts with a configured prefix,
    the result holds a preference for that prefix. *)
Theorem matched_prefix_is_reported (w : WikiRequest) (value prefix c : string) :
  cookies w !! CLIENT_PREFS_COOKIE_NAME (env w) = Some value -> value <> "" ->
  prefix ∈ CLIENT_PREFS_CLASS_PREFIXES (env w) ->
  c ∈ classNamesOf value -> JS.startsWith c prefix = true ->
  exists c', {| className := c'; classPrefix := prefix |} ∈ getClientPrefs w.
Proof.
  intros Hv Hne Hp Hc Hs.
  rewrite getClientPrefs_extractPreferences, Hv. unfold extractPreferences.
  destruct value as [|c0 v]; [contradiction|].
  destruct (firstWithPrefix (classNamesOf (String c0 v)) prefix) as [c'|] eqn:Hf.
  - exists c'. apply list_elem_of_In, in_flat_map. exists prefix.
    split; [apply list_elem_of_In; exact Hp|]. rewrite Hf. left. reflexivity.
  - exfalso. unfold firstWithPrefix in Hf.
    assert (Hn : JS.startsWith c prefix = false).
    { apply (find_none _ _ Hf c). apply list_elem_of_In. exact Hc. }
    congruence.
Qed.

Lemma matched_prefix_is_reported_at_sample :
  exists c', {| className := c'; classPrefix := "mf-tabs-" |}
               ∈ getClientPrefs prefsRequest.
Proof.
  apply (matched_prefix_is_reported prefsRequest
           "mf-tabs-enabled, foo-bar ,mf-theme-dark" "mf-tabs-" "mf-tabs-enabled").
  - vm_compute. reflexivity.
  - discriminate.
  - vm_compute. left.
  - vm_compute. left.
  - vm_compute. reflexivity.
Defined.

Lemma trimStart_startsClean (s : string) : startsClean (JS.trimStart s).
Proof.
  induction s as [|c s IH]; simpl; [exact I|].
  destruct (JS.isWhiteSpace c) eqn:Hc; [exact IH | exact Hc].
Qed.

Lemma trimStart_id (s : string) : startsClean s -> JS.trimStart s = s.
Proof. destruct s as [|c s]; simpl; [reflexivity|]. intros ->. reflexivity. Qed.

Lemma trimEnd_startsClean (s : string) : startsClean s -> startsClean (JS.trimEnd s).
Proof.
  destruct s as [|c s]; simpl; [auto|]. intros Hc.
  destruct (JS.trimEnd s); [rewrite Hc|]; exact Hc.
Qed.

Lemma trimEnd_idempotent (s : string) : JS.trimEnd (JS.trimEnd s) = JS.trimEnd s.
Proof.
  induction s as [|c s IH]; simpl; [reflexivity|].
  destruct (JS.trimEnd s) as [|d r] eqn:Hr.
  - destruct (JS.isWhiteSpace c) eqn:Hc; simpl; [reflexivity|].
    rewrite Hc. reflexivity.
  - change (JS.trimEnd (String c (String d r)))
      with (match JS.trimEnd (String d r) with
            | EmptyString =>
                if JS.isWhiteSpace c then EmptyString else String c EmptyString
            | String _ _ as t => String c t
            end).
    rewrite IH. reflexivity.
Qed.

Lemma trim_idempotent (s : string) : JS.trim (JS.trim s) = JS.trim s.
Proof.
  unfold JS.trim.
  rewrite (trimStart_id (JS.trimEnd (JS.trimStart s)))
    by (apply trimEnd_startsClean, trimStart_startsClean).
  apply trimEnd_idempotent.
Qed.

Lemma trimStart_free (c : ascii) (s : string) :
  occurs c s = false -> occurs c (JS.trimStart s) = false.
Proof.
  induction s as [|d s IH]; simpl; [auto|]. intros H.
  destruct (JS.isWhiteSpace d); [|exact H].
  apply orb_false_iff in H as [_ H]. auto.
Qed.

Lemma trimEnd_free (c : ascii) (s : string) :
  occurs c s = false -> occurs c (JS.trimEnd s) = false.
Proof.
  induction s as [|d s IH]; simpl; [auto|]. intros H.
  apply orb_false_iff in H as [Hd H]. specialize (IH H).
  destruct (JS.trimEnd s) as [|e r].
  - destruct (JS.isWhiteSpace d); simpl; [reflexivity | rewrite Hd; reflexivity].
  - simpl in *. rewrite Hd. exact IH.
Qed.

(** X14. The class names returned are clean tokens: none contains a comma,
    and each is its own trimmed form, with no white space at either end. *)
Theorem className_is_trimmed_token (w : WikiRequest) (p : ClientPref) :
  p ∈ getClientPrefs w ->
  occurs "," (className p) = false /\ JS.trim (className p) = className p.
Proof.
  intros H. destruct (getClientPrefs_elem w p H) as (value & _ & _ & _ & Hf).
  apply find_some in Hf as [Hin _]. unfold classNamesOf in Hin.
  apply in_map_iff in Hin as (piece & <- & Hpiece). split.
  - unfold JS.trim. apply trimEnd_free, trimStart_free.
    apply (split_pieces_free "," value). apply list_elem_of_In. exact Hpiece.
  - apply trim_idempotent.
Qed.

Lemma className_is_trimmed_token_at_sample :
  occurs "," "mf-theme-dark" = false /\ JS.trim "mf-theme-dark" = "mf-theme-dark".
Proof.
  assert (H : {| className := "mf-theme-dark"; classPrefix := "mf-theme-" |}
                ∈ getClientPrefs prefsRequest)
    by (vm_compute; right; left).
  exact (className_is_trimmed_token prefsRequest _ H).
Defined.

(** ** Dispatcher on the URL standard's setter *)

Lemma append_nil_r (s : string) : s +:+ "" = s.
Proof.
  induction s as [|c s IH]; [reflexivity|].
  change (String c (s +:+ "") = String c s). f_equal. exact IH.
Qed.

Lemma plainCodeUnit_copied (c : ascii) :
  plainCodeUnit c = true ->
  WHATWG.encodeCodePoint c = String c EmptyString /\ WHATWG.isSlash c = false.
Proof.
  unfold plainCodeUnit, WHATWG.encodeCodePoint. intros H.
  apply andb_true_iff in H as [H1 H2].
  apply negb_true_iff in H1, H2. rewrite H1. auto.
Qed.

Lemma plainCodeUnit_kept (c : ascii) :
  plainCodeUnit c = true -> WHATWG.isTabOrNewline c = false.
Proof.
  destruct c as [[] [] [] [] [] [] [] []]; vm_compute; intros H;
    first [reflexivity | discriminate H].
Qed.

Lemma removeTabsAndNewlines_plain (s : string) :
  allCodeUnits plainCodeUnit s = true -> WHATWG.removeTabsAndNewlines s = s.
Proof.
  induction s as [|c s IH]; simpl; [reflexivity|]. intros H.
  apply andb_true_iff in H as [Hc Hs].
  rewrite (plainCodeUnit_kept c Hc), (IH Hs). reflexivity.
Qed.

Lemma pathState_plain (seg rest : string) (path : list string) (buffer : string) :
  allCodeUnits plainCodeUnit seg = true ->
  WHATWG.pathState (seg +:+ rest) path buffer
  = WHATWG.pathState rest path (buffer +:+ seg).
Proof.
  revert buffer. induction seg as [|c seg IH]; intros buffer H.
  - rewrite append_nil_r. reflexivity.
  - simpl in H. apply andb_true_iff in H as [Hc Hs].
    destruct (plainCodeUnit_copied c Hc) as [He Hsl].
    change (String c seg +:+ rest) with (String c (seg +:+ rest)).
    change (WHATWG.pathState (String c (seg +:+ rest)) path buffer)
      with (if WHATWG.isSlash c then
              WHATWG.pathState (seg +:+ rest)
                (if WHATWG.isDoubleDot buffer then removelast path
                 else if WHATWG.isSingleDot buffer then path
                 else path ++ [buffer]) EmptyString
            else WHATWG.pathState (seg +:+ rest) path
                   (buffer +:+ WHATWG.encodeCodePoint c)).
    rewrite Hsl, He, (IH _ Hs), append_assoc_char. reflexivity.
Qed.

(** A path [/w/seg] with a plain segment is stored as written. *)
Lemma set_pathname_plain (seg : string) :
  plainSegment seg = true ->
  WHATWG.set_pathname ("/w/" +:+ seg) = "/w/" +:+ seg.
Proof.
  unfold plainSegment. intros H.
  apply andb_true_iff in H as [H Hdd]. apply andb_true_iff in H as [Hall Hsd].
  apply negb_true_iff in Hdd, Hsd.
  unfold WHATWG.set_pathname.
  assert (Hr : WHATWG.removeTabsAndNewlines ("/w/" +:+ seg) = "/w/" +:+ seg).
  { change ("/w/" +:+ seg) with (String "/" (String "w" (String "/" seg))).
    change (WHATWG.removeTabsAndNewlines (String "/" (String "w" (String "/" seg))))
      with (String "/" (String "w" (String "/" (WHATWG.removeTabsAndNewlines seg)))).
    rewrite (removeTabsAndNewlines_plain seg Hall). reflexivity. }
  rewrite Hr.
  assert (Hp : WHATWG.pathStartState ("/w/" +:+ seg)
               = WHATWG.pathState (seg +:+ "") ["w"] "").
  { rewrite append_nil_r. reflexivity. }
  rewrite Hp, (pathState_plain seg "" ["w"] "" Hall).
  change (("" : string) +:+ seg) with seg.
  change (WHATWG.pathState "" ["w"] seg)
    with (if WHATWG.isDoubleDot seg then removelast ["w"] ++ [EmptyString]
          else if WHATWG.isSingleDot seg then ["w"] ++ [EmptyString]
          else ["w"] ++ [seg]).
  rewrite Hdd, Hsd.
  change (WHATWG.serializePath (["w"] ++ [seg])) with ("/w/" +:+ (seg +:+ "")).
  rewrite append_nil_r. reflexivity.
Qed.

(** X15. On the URL standard's setter, an eligible [/index.php] request
    whose namespace and title need no percent-encoding (and do not form a
    dot segment) is dispatched to exactly [/w/<ns>:<title>], which resolves
    back to the same article and is still eligible, so the cache directive
    is attached. *)
Theorem plain_title_is_canonicalised (w : WikiRequest) (a : Article) :
  isEligibleForCache w = true -> pathname (url w) = "/index.php" ->
  targetArticle w = Some a ->
  plainSegment (canonicalSegment a) = true ->
  pathname (req_url (outbound WHATWG.set_pathname w)) = canonicalPath a
  /\ targetArticle (fst (fetch WHATWG.set_pathname w)) = Some a
  /\ isEligibleForCache (fst (fetch WHATWG.set_pathname w)) = true
  /\ directive WHATWG.set_pathname w
     = {| cacheTtlByStatus := Some (ttlByStatus (env w)); cacheEverything := true |}.
Proof.
  intros He Hp Ha Hplain.
  assert (Hs : WHATWG.set_pathname (canonicalPath a) = canonicalPath a)
    by exact (set_pathname_plain (canonicalSegment a) Hplain).
  unfold outbound, directive, fetch, cfOf. simpl.
  rewrite (canonicalize_rewrites WHATWG.set_pathname w a He Hp Ha).
  cbv zeta. cbn [req req_url pathname env].
  set (w' := {| req := _; env := env w; cookies := cookies w; url := _ |}).
  assert (Ha' : targetArticle w' = Some a).
  { apply targetArticle_canonicalPath; [exact Hs | exact (targetArticle_shape w a Ha)]. }
  assert (He' : isEligibleForCache w' = true).
  { apply (eligible_after_rewrite w a He Ha); try reflexivity. exact Ha'. }
  rewrite He'. repeat split; [exact Hs | exact Ha'].
Qed.

Lemma plain_title_is_canonicalised_at_help_lookup :
  pathname (req_url (outbound WHATWG.set_pathname helpLookup)) = "/w/Help:Contents"
  /\ isEligibleForCache (fst (fetch WHATWG.set_pathname helpLookup)) = true.
Proof.
  assert (He : isEligibleForCache helpLookup = true) by (vm_compute; reflexivity).
  assert (Hp : pathname (url helpLookup) = "/index.php") by reflexivity.
  assert (Ha : targetArticle helpLookup = Some {| ns := "Help"; title := "Contents" |})
    by (vm_compute; reflexivity).
  assert (Hs : plainSegment (canonicalSegment {| ns := "Help"; title := "Contents" |}) = true)
    by (vm_compute; reflexivity).
  destruct (plain_title_is_canonicalised helpLookup _ He Hp Ha Hs)
    as (H1 & _ & H3 & _).
  split; [exact H1 | exact H3].
Defined.

(** ** Resolver and dispatcher together *)

Section FailedChecks.

Variable URL_set_pathname : string -> string.

(** X16. A request that fails any one check (a private cookie with a
    non-empty value, a disqualifying key in the query, or a resolved
    namespace outside [CACHED_NAMESPACES]) is dispatched exactly as
    received, query included, with no TTL table and [cacheEverything]
    unset. *)
Theorem failed_check_passes_through (w : WikiRequest) :
  (exists name v, name ∈ PRIVATE_COOKIE_NAMES (env w)
                  /\ cookies w !! name = Some v /\ v <> "")
  \/ (exists key, key ∈ DISQUALIFYING_QUERY_KEYS /\ key ∈ (searchParams (url w)).*1)
  \/ (exists a, targetArticle w = Some a /\ ns a ∉ CACHED_NAMESPACES (env w)) ->
  isEligibleForCache w = false
  /\ outbound URL_set_pathname w = req w
  /\ directive URL_set_pathname w
     = {| cacheTtlByStatus := None; cacheEverything := false |}.
Proof.
  intros H.
  assert (He : isEligibleForCache w = false).
  { unfold isEligibleForCache. destruct H as [H | [H | H]].
    - apply hasPrivateCookie_true_iff in H. rewrite H. reflexivity.
    - destruct (hasPrivateCookie _ _); [reflexivity|].
      destruct (targetArticle w); [|reflexivity].
      destruct (existsb _ DISQUALIFYING_QUERY_KEYS) eqn:Hd; [reflexivity|].
      exfalso. destruct H as (key & Hin & Hq).
      exact (proj1 (noDisqualifyingKey_iff _) Hd key Hin Hq).
    - destruct H as (a & Ha & Hns). rewrite Ha.
      destruct (hasPrivateCookie _ _); [reflexivity|].
      destruct (existsb _ DISQUALIFYING_QUERY_KEYS); [reflexivity|].
      destruct (includes _ _) eqn:Hi; [|reflexivity].
      exfalso. apply Hns, includes_iff. exact Hi. }
  split; [exact He|]. split.
  - unfold outbound, fetch. simpl.
    rewrite (canonicalize_unchanged URL_set_pathname w (or_introl He)). reflexivity.
  - unfold directive, fetch, cfOf. simpl.
    rewrite (canonicalize_unchanged URL_set_pathname w (or_introl He)), He.
    reflexivity.
Qed.

End FailedChecks.

Lemma failed_check_passes_through_at_edit :
  outbound WHATWG.set_pathname editRequest = req editRequest
  /\ searchParams (req_url (outbound WHATWG.set_pathname editRequest))
     = [("action", "edit"); ("title", "Foo")].
Proof.
  assert (H : exists key, key ∈ DISQUALIFYING_QUERY_KEYS
                          /\ key ∈ (searchParams (url editRequest)).*1).
  { exists "action". split; vm_compute; left. }
  destruct (failed_check_passes_through WHATWG.set_pathname editRequest
              (or_intror (or_introl H))) as (_ & Ho & _).
  split; [exact Ho | rewrite Ho; reflexivity].
Defined.

(** X18. The resolver falls back to the main page whenever no title text is
    given: on [/], on [/index.php] with no [title] parameter or an empty
    one, and on the bare [/w/]. *)
Theorem missing_title_is_main_page (w : WikiRequest) :
  pathname (url w) = "/"
  \/ (pathname (url w) = "/index.php"
      /\ (searchParams_get (searchParams (url w)) "title" = None
          \/ searchParams_get (searchParams (url w)) "title" = Some ""))
  \/ pathname (url w) = "/w/" ->
  targetArticle w = Some {| ns := ""; title := "Main_Page" |}.
Proof.
  unfold targetArticle.
  intros [H | [(H & [Ht | Ht]) | H]]; rewrite H; try rewrite Ht; reflexivity.
Qed.

Lemma missing_title_is_main_page_at_bare_index :
  targetArticle (sampleRequest (sampleEnv [""] []) None ∅ "/index.php" [("x", "y")])
  = Some {| ns := ""; title := "Main_Page" |}.
Proof.
  apply missing_title_is_main_page. right. left.
  split; [reflexivity | left; reflexivity].
Defined.
